(** * AuthContext: the session provider of src/contexts/AuthContext.tsx

    A shallow embedding of the provider's state (user, userProfile, loading),
    of its collaborators (the Supabase client, the console, the clock) and of
    its operations (fetchUserProfile, signIn, signOut, updateProfile and the
    two session callbacks of the mount effect), followed by the properties
    the specification states about them. *)

From stdpp Require Import base strings gmap.

Local Open Scope string_scope.
Local Open Scope list_scope.

(** ** Data model *)

(** Values a row of the remote [users] table, or a partial update of it,
    can hold in a field. *)
Inductive value : Type :=
  | VUndefined
  | VNull
  | VBool (b : bool)
  | VNum (n : Z)
  | VStr (s : string).

Global Instance value_eq_dec : EqDecision value.
Proof. solve_decision. Defined.

(** [User] (the profile row) and [Partial<User>] are plain objects: finite
    maps from field names to values. *)
Abbreviation JsObject := (gmap string value).

(** Object spread [{ ...prev, ...updates }]: every key of [updates] wins,
    the other keys of [prev] are kept. *)
Definition spread (prev updates : JsObject) : JsObject := updates ∪ prev.

(** The fields of the backend's user record that the provider builds or
    reads. *)
Record SupabaseUser : Type := mkSupabaseUser {
  user_id : string;
  user_email : string;
  user_created_at : string;
  user_updated_at : string
}.

Global Instance SupabaseUser_eq_dec : EqDecision SupabaseUser.
Proof. solve_decision. Defined.

Record Session : Type := mkSession { session_user : SupabaseUser }.

(** Thrown values: [new Error(message)] and the error objects of the
    backend client. *)
Record Error : Type := mkError { err_name : string; err_message : string }.

Global Instance Error_eq_dec : EqDecision Error.
Proof. solve_decision. Defined.

Definition new_Error (message : string) : Error := mkError "Error" message.

(** ** The external collaborators *)

Inductive promise (A : Type) : Type :=
  | Fulfilled (a : A)
  | Rejected (reason : Error).
Arguments Fulfilled {A} a.
Arguments Rejected {A} reason.

(** The [{ data, error }] answer of a single-row select. *)
Record SelectReply : Type := mkSelectReply {
  data : option JsObject;
  error : option Error
}.

(** What the Supabase client answers to each call the provider makes. The
    [{ error }] answers are given by their [error] field ([None] is [null]). *)
Record Supabase : Type := mkSupabase {
  auth_signInWithPassword : string → string → promise (option Error);
  auth_signOut : promise (option Error);
  users_select_single : string → promise SelectReply;
  users_update : JsObject → string → promise (option Error)
}.

(** ** Provider state and observable effects *)

Inductive event : Type :=
  | EvSetUser (u : option SupabaseUser)
  | EvSetUserProfile (p : option JsObject)
  | EvSetLoading (b : bool)
  | EvSignInWithPassword (email password : string)
  | EvAuthSignOut
  | EvUsersSelectSingle (userId : string)
  | EvUsersUpdate (updates : JsObject) (userId : string)
  | EvConsoleError (msg : string) (e : Error)
  | EvConsoleLog (msg : string).

(** A backend call is any request sent to the Supabase client. *)
Definition is_backend_call (ev : event) : bool :=
  match ev with
  | EvSignInWithPassword _ _ | EvAuthSignOut
  | EvUsersSelectSingle _ | EvUsersUpdate _ _ => true
  | _ => false
  end.

Definition is_remote_write (ev : event) : bool :=
  match ev with EvUsersUpdate _ _ => true | _ => false end.

Definition is_refetch (ev : event) : bool :=
  match ev with EvUsersSelectSingle _ => true | _ => false end.

(** The three [useState] cells, the number of clock reads so far and the
    chronological trace of effects. *)
Record World : Type := mkWorld {
  user : option SupabaseUser;
  userProfile : option JsObject;
  loading : bool;
  clock_reads : nat;
  events : list event
}.

(** [useState(null)], [useState(null)], [useState(true)]. *)
Definition initial_world : World := mkWorld None None true 0 [].

(** ** A state and exception monad for the async functions *)

Inductive completion (A : Type) : Type :=
  | Normal (a : A)
  | Throw (e : Error).
Arguments Normal {A} a.
Arguments Throw {A} e.

Definition M (A : Type) : Type := World → completion A * World.

Global Instance M_ret : MRet M := λ A a w, (Normal a, w).

Global Instance M_bind : MBind M := λ A B f m w,
  match m w with
  | (Normal a, w') => f a w'
  | (Throw e, w') => (Throw e, w')
  end.

Definition throw {A : Type} (e : Error) : M A := λ w, (Throw e, w).

(** [try { body } catch (e) { handler e }] *)
Definition try_catch {A : Type} (body : M A) (handler : Error → M A) : M A :=
  λ w, match body w with
       | (Normal a, w') => (Normal a, w')
       | (Throw e, w') => handler e w'
       end.

(** [try { body } finally { fin }]: [fin] runs on both exits; the
    completion of [body] stands unless [fin] itself throws. *)
Definition try_finally {A : Type} (body : M A) (fin : M unit) : M A :=
  λ w, match body w with
       | (r, w') =>
           match fin w' with
           | (Normal _, w'') => (r, w'')
           | (Throw e, w'') => (Throw e, w'')
           end
       end.

Definition emit (ev : event) : M unit := λ w,
  (Normal tt,
   mkWorld (user w) (userProfile w) (loading w) (clock_reads w) (events w ++ [ev])).

(** [await p] *)
Definition await {A : Type} (p : promise A) : M A :=
  match p with
  | Fulfilled a => mret a
  | Rejected e => throw e
  end.

(** [if (error) throw error;] *)
Definition throw_if_error (err : option Error) : M unit :=
  match err with
  | Some e => throw e
  | None => mret tt
  end.

Definition read_user : M (option SupabaseUser) := λ w, (Normal (user w), w).

Definition setUser (u : option SupabaseUser) : M unit := λ w,
  (Normal tt,
   mkWorld u (userProfile w) (loading w) (clock_reads w) (events w ++ [EvSetUser u])).

Definition setUserProfile (p : option JsObject) : M unit := λ w,
  (Normal tt,
   mkWorld (user w) p (loading w) (clock_reads w) (events w ++ [EvSetUserProfile p])).

(** [setUserProfile(prev => f prev)] *)
Definition setUserProfile_with (f : option JsObject → option JsObject) : M unit :=
  λ w, setUserProfile (f (userProfile w)) w.

Definition setLoading (b : bool) : M unit := λ w,
  (Normal tt,
   mkWorld (user w) (userProfile w) b (clock_reads w) (events w ++ [EvSetLoading b])).

Definition console_error (msg : string) (e : Error) : M unit :=
  emit (EvConsoleError msg e).

Definition console_log (msg : string) : M unit := emit (EvConsoleLog msg).

(** ** The provider *)

Section Provider.

(** The backend client and the clock ([clock n] is what the [n]-th
    [new Date().toISOString()] returns). *)
Variable supabase : Supabase.
Variable clock : nat → string.

Definition new_Date_toISOString : M string := λ w,
  (Normal (clock (clock_reads w)),
   mkWorld (user w) (userProfile w) (loading w) (S (clock_reads w)) (events w)).

Definition call_signInWithPassword (email password : string) : M (option Error) :=
  emit (EvSignInWithPassword email password);;
  await (auth_signInWithPassword supabase email password).

Definition call_signOut : M (option Error) :=
  emit EvAuthSignOut;;
  await (auth_signOut supabase).

Definition call_select_single (userId : string) : M SelectReply :=
  emit (EvUsersSelectSingle userId);;
  await (users_select_single supabase userId).

Definition call_update (updates : JsObject) (userId : string) : M (option Error) :=
  emit (EvUsersUpdate updates userId);;
  await (users_update supabase updates userId).

Definition fetchUserProfile (userId : string) : M unit :=
  try_finally
    (try_catch
       (r ← call_select_single userId;
        throw_if_error (error r);;
        setUserProfile (data r))
       (λ e, console_error "Error fetching user profile:" e))
    (setLoading false).

Definition mockUser (created_at updated_at : string) : SupabaseUser :=
  {| user_id := "demo-user-id";
     user_email := "demo@chamber.law";
     user_created_at := created_at;
     user_updated_at := updated_at |}.

Definition mockProfile (created_at updated_at : string) : JsObject :=
  list_to_map
    [ ("id", VStr "demo-user-id");
      ("tenant_id", VStr "demo-tenant");
      ("email", VStr "demo@chamber.law");
      ("role", VStr "senior_lawyer");
      ("name", VStr "Demo User");
      ("language", VStr "en");
      ("created_at", VStr created_at);
      ("updated_at", VStr updated_at) ].

Definition is_demo_credentials (email password : string) : bool :=
  (email =? "demo@chamber.law") && (password =? "demo123456").

Definition invalid_credentials_message : string :=
  "Invalid credentials. Please try demo@chamber.law / demo123456".

Definition signIn (email password : string) : M unit :=
  if is_demo_credentials email password then
    uc ← new_Date_toISOString;
    uu ← new_Date_toISOString;
    pc ← new_Date_toISOString;
    pu ← new_Date_toISOString;
    setUser (Some (mockUser uc uu));;
    setUserProfile (Some (mockProfile pc pu))
  else
    try_catch
      (err ← call_signInWithPassword email password;
       throw_if_error err)
      (λ _, throw (new_Error invalid_credentials_message)).

Definition signOut : M unit :=
  setUser None;;
  setUserProfile None;;
  try_catch
    (_ ← call_signOut; mret tt)
    (λ _, console_log "Supabase signOut skipped in demo mode").

Definition updateProfile (updates : JsObject) : M unit :=
  u ← read_user;
  match u with
  | None => throw (new_Error "No user logged in")
  | Some usr =>
      err ← call_update updates (user_id usr);
      throw_if_error err;;
      setUserProfile_with
        (λ prev, match prev with
                 | Some p => Some (spread p updates)
                 | None => None
                 end)
  end.

(** [session?.user ?? null] *)
Definition session_user_or_null (session : option Session) : option SupabaseUser :=
  session_user <$> session.

(** The callback given to [supabase.auth.getSession().then]. The call to
    [fetchUserProfile] is not awaited there; it is run here to its end. *)
Definition onInitialSession (session : option Session) : M unit :=
  setUser (session_user_or_null session);;
  match session_user_or_null session with
  | Some u => fetchUserProfile (user_id u)
  | None => setLoading false
  end.

(** The mount effect's first half: the callback runs only when the
    promise of [getSession] is fulfilled. *)
Definition initialize (reply : promise (option Session)) : M unit :=
  match reply with
  | Fulfilled session => onInitialSession session
  | Rejected _ => mret tt
  end.

(** The callback given to [supabase.auth.onAuthStateChange]. *)
Definition onAuthStateChange (ev : string) (session : option Session) : M unit :=
  setUser (session_user_or_null session);;
  match session_user_or_null session with
  | Some u => fetchUserProfile (user_id u)
  | None => setUserProfile None;; setLoading false
  end.

End Provider.

(** ** Runs of the provider *)

(** What can happen to a mounted provider: the two session callbacks of
    the mount effect and the three operations handed to consumers. *)
Inductive operation : Type :=
  | OpInitialize (reply : promise (option Session))
  | OpAuthStateChange (ev : string) (session : option Session)
  | OpSignIn (email password : string)
  | OpSignOut
  | OpUpdateProfile (updates : JsObject).

Definition run (supabase : Supabase) (clock : nat → string) (op : operation) : M unit :=
  match op with
  | OpInitialize reply => initialize supabase reply
  | OpAuthStateChange ev session => onAuthStateChange supabase ev session
  | OpSignIn email password => signIn supabase clock email password
  | OpSignOut => signOut supabase
  | OpUpdateProfile updates => updateProfile supabase updates
  end.

(** The world an operation leaves, whether it returned or threw. *)
Definition exec (supabase : Supabase) (clock : nat → string) (op : operation)
    (w : World) : World :=
  (run supabase clock op w).2.



(** [profile.id == identity.id] whenever both are present. *)
Definition profile_matches_identity (w : World) : Prop :=
  match user w, userProfile w with
  | Some u, Some p => p !! "id" = Some (VStr (user_id u))
  | _, _ => True
  end.

Global Instance profile_matches_identity_dec w : Decision (profile_matches_identity w).
Proof. unfold profile_matches_identity. destruct (user w), (userProfile w); apply _. Defined.

(** [haystack.includes(needle)] *)
Definition includes (haystack needle : string) : bool :=
  match String.index 0 needle haystack with
  | Some _ => true
  | None => false
  end.

(** The error a request ends with, if any: the [error] field of its
    answer, or the reason of its rejection. *)
Definition select_failure (p : promise SelectReply) : option Error :=
  match p with
  | Fulfilled r => error r
  | Rejected e => Some e
  end.

(** ** The operations cut at their awaits

    An async function runs without interruption up to its [await], and
    again from the answer on; between the two, other callbacks and
    operations can run. Each piece below is one such uninterrupted stretch
    of the source. *)

(** [fetchUserProfile] up to its await: the select is sent. *)
Definition fetchUserProfile_sent (userId : string) : M unit :=
  emit (EvUsersSelectSingle userId).

(** [fetchUserProfile] from the answer of its select on. *)
Definition fetchUserProfile_resumed (answer : promise SelectReply) : M unit :=
  try_finally
    (try_catch
       (r ← await answer;
        throw_if_error (error r);;
        setUserProfile (data r))
       (λ e, console_error "Error fetching user profile:" e))
    (setLoading false).

(** The callback of [getSession] until the fetch it starts is pending. *)
Definition onInitialSession_sent (session : option Session) : M unit :=
  setUser (session_user_or_null session);;
  match session_user_or_null session with
  | Some u => fetchUserProfile_sent (user_id u)
  | None => setLoading false
  end.

(** The callback of [onAuthStateChange] until the fetch it awaits is
    pending; nothing follows that await in the callback. *)
Definition onAuthStateChange_sent (ev : string) (session : option Session) : M unit :=
  setUser (session_user_or_null session);;
  match session_user_or_null session with
  | Some u => fetchUserProfile_sent (user_id u)
  | None => setUserProfile None;; setLoading false
  end.

(** [signIn] up to its await: the whole demo branch, or the request. *)
Definition signIn_sent (clock : nat → string) (email password : string) : M unit :=
  if is_demo_credentials email password then
    uc ← new_Date_toISOString clock;
    uu ← new_Date_toISOString clock;
    pc ← new_Date_toISOString clock;
    pu ← new_Date_toISOString clock;
    setUser (Some (mockUser uc uu));;
    setUserProfile (Some (mockProfile pc pu))
  else
    emit (EvSignInWithPassword email password).

(** [signIn] from the answer of the password sign-in on. *)
Definition signIn_resumed (answer : promise (option Error)) : M unit :=
  try_catch
    (err ← await answer;
     throw_if_error err)
    (λ _, throw (new_Error invalid_credentials_message)).

(** [signOut] up to its await. *)
Definition signOut_sent : M unit :=
  setUser None;;
  setUserProfile None;;
  emit EvAuthSignOut.

(** [signOut] from the answer of the backend sign-out on. *)
Definition signOut_resumed (answer : promise (option Error)) : M unit :=
  try_catch
    (_ ← await answer; mret tt)
    (λ _, console_log "Supabase signOut skipped in demo mode").

(** [updateProfile] is made anew by every render and reads the [user] of
    that render: [captured] is that value, which is the current identity
    only when the function comes from the latest render. Up to its await: *)
Definition updateProfile_sent (captured : option SupabaseUser) (updates : JsObject) :
    M unit :=
  match captured with
  | None => throw (new_Error "No user logged in")
  | Some usr => emit (EvUsersUpdate updates (user_id usr))
  end.

(** [updateProfile] from the answer of the write on; the updater of
    [setUserProfile] reads the profile cached at that moment. *)
Definition updateProfile_resumed (updates : JsObject) (answer : promise (option Error)) :
    M unit :=
  err ← await answer;
  throw_if_error err;;
  setUserProfile_with
    (λ prev, match prev with
             | Some p => Some (spread p updates)
             | None => None
             end).

(** The [updateProfile] of a render in which [user] was [captured], run to
    its end against a backend. *)
Definition updateProfile_of (supabase : Supabase) (captured : option SupabaseUser)
    (updates : JsObject) : M unit :=
  match captured with
  | None => throw (new_Error "No user logged in")
  | Some usr =>
      err ← call_update supabase updates (user_id usr);
      throw_if_error err;;
      setUserProfile_with
        (λ prev, match prev with
                 | Some p => Some (spread p updates)
                 | None => None
                 end)
  end.

(** One uninterrupted stretch. A resumed fetch remembers the id it asked
    for. *)
Inductive segment : Type :=
  | SegInitialSession (session : option Session)
  | SegAuthStateChange (ev : string) (session : option Session)
  | SegFetchResumed (userId : string) (answer : promise SelectReply)
  | SegSignIn (email password : string)
  | SegSignInResumed (answer : promise (option Error))
  | SegSignOut
  | SegSignOutResumed (answer : promise (option Error))
  | SegUpdateProfile (captured : option SupabaseUser) (updates : JsObject)
  | SegUpdateProfileResumed (updates : JsObject) (answer : promise (option Error)).

Definition run_segment (clock : nat → string) (seg : segment) : M unit :=
  match seg with
  | SegInitialSession session => onInitialSession_sent session
  | SegAuthStateChange ev session => onAuthStateChange_sent ev session
  | SegFetchResumed _ answer => fetchUserProfile_resumed answer
  | SegSignIn email password => signIn_sent clock email password
  | SegSignInResumed answer => signIn_resumed answer
  | SegSignOut => signOut_sent
  | SegSignOutResumed answer => signOut_resumed answer
  | SegUpdateProfile captured updates => updateProfile_sent captured updates
  | SegUpdateProfileResumed updates answer => updateProfile_resumed updates answer
  end.

Definition exec_segment (clock : nat → string) (seg : segment) (w : World) : World :=
  (run_segment clock seg w).2.

(** Any interleaving is a list of stretches, run in the order they happen. *)
Definition exec_segments (clock : nat → string) (segs : list segment) (w : World) :
    World :=
  foldl (λ w' seg, exec_segment clock seg w') w segs.

(** Whether the identity set in [w], if any, has this id. *)
Definition identity_is (userId : string) (w : World) : Prop :=
  match user w with
  | Some u => user_id u = userId
  | None => True
  end.

(** When a stretch keeps [profile_matches_identity], in terms of what it is
    given:
    - a session callback with an identity replaces the identity before any
      profile arrives: the cached profile must be absent, or the identity
      already set must have the same id;
    - a fetch that resumes with a row: the row must have the id that was
      asked for, and the identity set by then, if any, must have that id
      (no other identity was set while the fetch was pending);
    - the merge of an update: the update must carry no [id], or the id of
      the identity set by then.
    Every other stretch keeps it. *)
Definition keeps_identity (seg : segment) (w : World) : Prop :=
  match seg with
  | SegInitialSession (Some s) | SegAuthStateChange _ (Some s) =>
      match userProfile w, user w with
      | None, _ => True
      | Some _, Some u => user_id u = user_id (session_user s)
      | Some _, None => False
      end
  | SegFetchResumed userId (Fulfilled {| data := Some row; error := None |}) =>
      row !! "id" = Some (VStr userId) ∧ identity_is userId w
  | SegUpdateProfileResumed updates _ =>
      match updates !! "id", user w with
      | Some v, Some u => v = VStr (user_id u)
      | _, _ => True
      end
  | _ => True
  end.

(** The condition holds at every stretch of an interleaving, each taken
    in the world it starts from. *)
Fixpoint all_keep_identity (clock : nat → string) (segs : list segment) (w : World) :
    Prop :=
  match segs with
  | [] => True
  | seg :: rest =>
      keeps_identity seg w ∧ all_keep_identity clock rest (exec_segment clock seg w)
  end.

(** What consumers read from the context: the three state cells. *)
Definition cells (w : World) : option SupabaseUser * option JsObject * bool :=
  (user w, userProfile w, loading w).

(** The requests among some effects, in order. *)
Definition backend_calls (evs : list event) : list event :=
  List.filter is_backend_call evs.

(** Whether a request ended with an error, and which. *)
Definition reported_error (p : promise (option Error)) : option Error :=
  match p with
  | Fulfilled err => err
  | Rejected e => Some e
  end.

(** ** Sample collaborators *)

Definition network_error : Error := mkError "TypeError" "Failed to fetch".

(** A backend that cannot be reached: every call rejects. *)
Definition offline_supabase : Supabase :=
  {| auth_signInWithPassword := λ _ _, Rejected network_error;
     auth_signOut := Rejected network_error;
     users_select_single := λ _, Rejected network_error;
     users_update := λ _ _, Rejected network_error |}.

Definition auth_error : Error := mkError "AuthApiError" "Invalid login credentials".

(** An error whose text is also the beginning of the message of
    [signIn]. *)
Definition terse_auth_error : Error := mkError "AuthApiError" "Invalid credentials".

Definition terse_supabase : Supabase :=
  {| auth_signInWithPassword := λ _ _, Fulfilled (Some terse_auth_error);
     auth_signOut := Fulfilled None;
     users_select_single := λ _, Fulfilled (mkSelectReply None None);
     users_update := λ _ _, Fulfilled None |}.

Definition row_error : Error :=
  mkError "PostgrestError" "JSON object requested, multiple (or no) rows returned".

(** A reachable backend that turns every request down with an error
    answer. *)
Definition refusing_supabase : Supabase :=
  {| auth_signInWithPassword := λ _ _, Fulfilled (Some auth_error);
     auth_signOut := Fulfilled (Some auth_error);
     users_select_single := λ _, Fulfilled (mkSelectReply None (Some row_error));
     users_update := λ _ _, Fulfilled (Some row_error) |}.

Definition sample_row (userId : string) : JsObject :=
  list_to_map
    [ ("id", VStr userId);
      ("tenant_id", VStr "tenant-1");
      ("email", VStr "ada@example.org");
      ("role", VStr "paralegal");
      ("name", VStr "Ada");
      ("language", VStr "fr") ].

(** A reachable backend that accepts every request and holds a row for
    every id. *)
Definition accepting_supabase : Supabase :=
  {| auth_signInWithPassword := λ _ _, Fulfilled None;
     auth_signOut := Fulfilled None;
     users_select_single := λ userId, Fulfilled (mkSelectReply (Some (sample_row userId)) None);
     users_update := λ _ _, Fulfilled None |}.

Definition fixed_clock : nat → string := λ _, "2024-01-01T00:00:00.000Z".

Definition ada : SupabaseUser :=
  mkSupabaseUser "user-ada" "ada@example.org" "2023-05-01T10:00:00.000Z" "2023-05-01T10:00:00.000Z".

(** A signed-in provider whose profile has been fetched. *)
Definition ada_world : World :=
  mkWorld (Some ada) (Some (sample_row "user-ada")) false 0 [].

(** A signed-in provider whose profile fetch failed. *)
Definition ada_without_profile : World :=
  mkWorld (Some ada) None false 0 [].

Definition bob : SupabaseUser :=
  mkSupabaseUser "user-bob" "bob@example.org" "2023-06-01T10:00:00.000Z" "2023-06-01T10:00:00.000Z".

(** * Properties *)

(** Opening a world into its five cells lets the operations compute. *)
Ltac open_world w :=
  destruct w as [wu wp wl wc wt]; cbn [user userProfile loading clock_reads events] in *;
  subst.

Ltac run_provider :=
  cbv [updateProfile signIn signOut fetchUserProfile onInitialSession initialize
       onAuthStateChange session_user_or_null
       call_update call_signOut call_select_single call_signInWithPassword
       new_Date_toISOString read_user setUser setUserProfile setUserProfile_with
       setLoading console_error console_log emit await throw throw_if_error
       try_catch try_finally mbind M_bind mret M_ret fmap option_fmap option_map
       user userProfile loading clock_reads events].

(** ** updateProfile *)

Lemma updateProfile_signed_out sb U w :
  user w = None →
  updateProfile sb U w = (Throw (new_Error "No user logged in"), w).
Proof. intros Hu. open_world w. reflexivity. Qed.

Lemma updateProfile_failed sb U w u e :
  user w = Some u →
  users_update sb U (user_id u) = Fulfilled (Some e)
  ∨ users_update sb U (user_id u) = Rejected e →
  updateProfile sb U w =
    (Throw e,
     mkWorld (user w) (userProfile w) (loading w) (clock_reads w)
       (events w ++ [EvUsersUpdate U (user_id u)])).
Proof.
  intros Hu Hfail. open_world w. run_provider.
  destruct Hfail as [-> | ->]; reflexivity.
Qed.

Lemma updateProfile_written sb U w u :
  user w = Some u →
  users_update sb U (user_id u) = Fulfilled None →
  let merged := match userProfile w with
                | Some p => Some (spread p U)
                | None => None
                end in
  updateProfile sb U w =
    (Normal tt,
     mkWorld (user w) merged (loading w) (clock_reads w)
       (events w ++ [EvUsersUpdate U (user_id u); EvSetUserProfile merged])).
Proof.
  intros Hu Hok. open_world w. run_provider. rewrite Hok.
  cbn. by rewrite <- app_assoc.
Qed.

(** The spread keeps the value of [updates] at its keys and the value of
    [prev] elsewhere. *)
Lemma spread_lookup (prev updates : JsObject) (k : string) :
  spread prev updates !! k =
    match updates !! k with
    | Some v => Some v
    | None => prev !! k
    end.
Proof.
  unfold spread. destruct (updates !! k) as [v|] eqn:Hk.
  - by apply lookup_union_Some_l.
  - by rewrite lookup_union_r.
Qed.

Lemma spread_dom (prev updates : JsObject) :
  dom updates ⊆ dom prev → dom (spread prev updates) = dom prev.
Proof. intros Hsub. unfold spread. rewrite dom_union_L. by apply subseteq_union_1_L. Qed.

(** C2. updateProfile merge law: with an identity set, a cached profile [P]
    and a partial update [U] whose keys are a proper subset of the keys of
    [P], a successful remote write leaves as cached profile [P] with every
    key of [U] overwritten by the value of [U] and every other key
    unchanged (a shallow merge with the keys of [P]); the only request sent
    is the update itself, no row is fetched again. *)
Theorem updateProfile_merge_law (sb : Supabase) (w : World) (u : SupabaseUser)
    (P U : JsObject) :
  user w = Some u →
  userProfile w = Some P →
  dom U ⊂ dom P →
  users_update sb U (user_id u) = Fulfilled None →
  ∃ P' : JsObject,
    updateProfile sb U w =
      (Normal tt,
       mkWorld (user w) (Some P') (loading w) (clock_reads w)
         (events w ++ [EvUsersUpdate U (user_id u); EvSetUserProfile (Some P')]))
    ∧ (∀ k v, U !! k = Some v → P' !! k = Some v)
    ∧ (∀ k, U !! k = None → P' !! k = P !! k)
    ∧ dom P' = dom P
    ∧ Forall (λ ev, is_refetch ev = false)
        [EvUsersUpdate U (user_id u); EvSetUserProfile (Some P')].
Proof.
  intros Hu HP [Hsub _] Hok. exists (spread P U).
  split; [| split; [| split; [| split]]].
  - rewrite (updateProfile_written sb U w u Hu Hok). by rewrite HP.
  - intros k v Hk. by rewrite spread_lookup, Hk.
  - intros k Hk. by rewrite spread_lookup, Hk.
  - by apply spread_dom.
  - by repeat constructor.
Qed.

Lemma updateProfile_merge_law_witness :
  ∃ P' : JsObject,
    userProfile (updateProfile accepting_supabase {["name" := VStr "Ada L."]} ada_world).2
      = Some P'
    ∧ P' !! "name" = Some (VStr "Ada L.")
    ∧ P' !! "role" = Some (VStr "paralegal").
Proof.
  destruct (updateProfile_merge_law accepting_supabase ada_world ada
              (sample_row "user-ada") {["name" := VStr "Ada L."]})
    as (P' & Hrun & Hin & Hout & _).
  - reflexivity.
  - reflexivity.
  - compute_done.
  - reflexivity.
  - exists P'. rewrite Hrun. split; [reflexivity |]. split.
    + apply Hin. reflexivity.
    + rewrite Hout; reflexivity.
Defined.

(** C5. With no identity set, updateProfile fails with "No user logged in"
    whatever the partial update; the world it leaves is the one it found:
    no request was sent to the remote store and no state cell changed. *)
Theorem updateProfile_no_user (sb : Supabase) (U : JsObject) (w : World) :
  user w = None →
  updateProfile sb U w = (Throw (new_Error "No user logged in"), w)
  ∧ err_message (new_Error "No user logged in") = "No user logged in".
Proof. intros Hu. split; [by apply updateProfile_signed_out | reflexivity]. Qed.

Lemma updateProfile_no_user_witness :
  user initial_world = None
  ∧ updateProfile accepting_supabase {["name" := VStr "Eve"]} initial_world
    = (Throw (new_Error "No user logged in"), initial_world).
Proof.
  split; [reflexivity |].
  apply (updateProfile_no_user accepting_supabase {["name" := VStr "Eve"]} initial_world).
  reflexivity.
Defined.

(** C6. When the remote store reports a failure (an error answer or a
    rejected request), updateProfile throws that very error and the three
    state cells are as before the call. *)
Theorem updateProfile_remote_failure (sb : Supabase) (U : JsObject) (w : World)
    (u : SupabaseUser) (e : Error) :
  user w = Some u →
  users_update sb U (user_id u) = Fulfilled (Some e)
  ∨ users_update sb U (user_id u) = Rejected e →
  (updateProfile sb U w).1 = Throw e
  ∧ user (updateProfile sb U w).2 = user w
  ∧ userProfile (updateProfile sb U w).2 = userProfile w
  ∧ loading (updateProfile sb U w).2 = loading w.
Proof.
  intros Hu Hfail. by rewrite (updateProfile_failed sb U w u e Hu Hfail).
Qed.

Lemma updateProfile_remote_failure_witness :
  (updateProfile refusing_supabase {["name" := VStr "Ada L."]} ada_world).1 = Throw row_error
  ∧ userProfile (updateProfile refusing_supabase {["name" := VStr "Ada L."]} ada_world).2
    = Some (sample_row "user-ada").
Proof.
  destruct (updateProfile_remote_failure refusing_supabase {["name" := VStr "Ada L."]}
              ada_world ada row_error) as (Hthrow & _ & Hprofile & _).
  - reflexivity.
  - left. reflexivity.
  - split; [exact Hthrow | exact Hprofile].
Defined.

(** C10. With an identity set but no cached profile, a successful remote
    write leaves the cached profile empty: the update was sent to the remote
    store, and the merge, applied only to an existing profile, stores
    nothing. *)
Theorem updateProfile_empty_profile (sb : Supabase) (U : JsObject) (w : World)
    (u : SupabaseUser) :
  user w = Some u →
  userProfile w = None →
  users_update sb U (user_id u) = Fulfilled None →
  updateProfile sb U w =
    (Normal tt,
     mkWorld (user w) None (loading w) (clock_reads w)
       (events w ++ [EvUsersUpdate U (user_id u); EvSetUserProfile None]))
  ∧ is_remote_write (EvUsersUpdate U (user_id u)) = true.
Proof.
  intros Hu HP Hok. split; [| reflexivity].
  rewrite (updateProfile_written sb U w u Hu Hok). by rewrite HP.
Qed.

Lemma updateProfile_empty_profile_witness :
  userProfile (updateProfile accepting_supabase {["name" := VStr "Ada L."]}
                 ada_without_profile).2 = None.
Proof.
  destruct (updateProfile_empty_profile accepting_supabase {["name" := VStr "Ada L."]}
              ada_without_profile ada) as [Hrun _].
  - reflexivity.
  - reflexivity.
  - reflexivity.
  - rewrite Hrun. reflexivity.
Defined.

(** ** signIn *)

Lemma is_demo_credentials_spec email password :
  is_demo_credentials email password = true
  ↔ email = "demo@chamber.law" ∧ password = "demo123456".
Proof.
  unfold is_demo_credentials. rewrite andb_true_iff, !String.eqb_eq. tauto.
Qed.

Lemma is_demo_credentials_other email password :
  ¬ (email = "demo@chamber.law" ∧ password = "demo123456") →
  is_demo_credentials email password = false.
Proof.
  intros Hne. apply not_true_is_false. by rewrite is_demo_credentials_spec.
Qed.

Lemma signIn_demo sb clock w :
  signIn sb clock "demo@chamber.law" "demo123456" w =
    (Normal tt,
     let u := mockUser (clock (clock_reads w)) (clock (1 + clock_reads w)) in
     let p := mockProfile (clock (2 + clock_reads w)) (clock (3 + clock_reads w)) in
     mkWorld (Some u) (Some p) (loading w) (4 + clock_reads w)
       (events w ++ [EvSetUser (Some u); EvSetUserProfile (Some p)])).
Proof.
  open_world w. unfold signIn.
  replace (is_demo_credentials _ _) with true by reflexivity.
  run_provider. cbv zeta. by rewrite <- app_assoc.
Qed.

Lemma signIn_backend sb clock email password w :
  is_demo_credentials email password = false →
  signIn sb clock email password w =
    (match auth_signInWithPassword sb email password with
     | Fulfilled None => Normal tt
     | _ => Throw (new_Error invalid_credentials_message)
     end,
     mkWorld (user w) (userProfile w) (loading w) (clock_reads w)
       (events w ++ [EvSignInWithPassword email password])).
Proof.
  intros Hdemo. open_world w. unfold signIn. rewrite Hdemo. run_provider.
  by destruct (auth_signInWithPassword sb email password) as [[e|]|e].
Qed.

Lemma mockProfile_fields created_at updated_at :
  mockProfile created_at updated_at !! "id" = Some (VStr "demo-user-id")
  ∧ mockProfile created_at updated_at !! "role" = Some (VStr "senior_lawyer")
  ∧ mockProfile created_at updated_at !! "language" = Some (VStr "en").
Proof. by vm_compute. Qed.

(** C1. For the exact pair "demo@chamber.law" / "demo123456", whatever the
    backend answers or fails to answer, signIn returns after setting an
    identity with id "demo-user-id" and a profile with role "senior_lawyer"
    and language "en", and its only effects are these two state updates: no
    request goes to the backend. For every other pair (strings are compared
    as they are, so any difference in case or length counts) the bypass is
    not taken: the pair is sent to the backend's password sign-in and no
    state cell is set. *)
Theorem signIn_demo_bypass (sb : Supabase) (clock : nat → string)
    (email password : string) (w : World) :
  (email = "demo@chamber.law" ∧ password = "demo123456" →
   ∃ (u : SupabaseUser) (p : JsObject),
     signIn sb clock email password w =
       (Normal tt,
        mkWorld (Some u) (Some p) (loading w) (4 + clock_reads w)
          (events w ++ [EvSetUser (Some u); EvSetUserProfile (Some p)]))
     ∧ user_id u = "demo-user-id"
     ∧ p !! "id" = Some (VStr "demo-user-id")
     ∧ p !! "role" = Some (VStr "senior_lawyer")
     ∧ p !! "language" = Some (VStr "en")
     ∧ Forall (λ ev, is_backend_call ev = false)
         [EvSetUser (Some u); EvSetUserProfile (Some p)])
  ∧ (¬ (email = "demo@chamber.law" ∧ password = "demo123456") →
     ∃ r : completion unit,
       signIn sb clock email password w =
         (r,
          mkWorld (user w) (userProfile w) (loading w) (clock_reads w)
            (events w ++ [EvSignInWithPassword email password]))
       ∧ is_backend_call (EvSignInWithPassword email password) = true).
Proof.
  split.
  - intros [-> ->].
    exists (mockUser (clock (clock_reads w)) (clock (1 + clock_reads w))).
    exists (mockProfile (clock (2 + clock_reads w)) (clock (3 + clock_reads w))).
    destruct (mockProfile_fields (clock (2 + clock_reads w)) (clock (3 + clock_reads w)))
      as (Hid & Hrole & Hlang).
    split; [apply signIn_demo |]. repeat split; try assumption.
    by repeat constructor.
  - intros Hne. eexists. split; [| reflexivity].
    apply signIn_backend. by apply is_demo_credentials_other.
Qed.

Lemma signIn_demo_bypass_witness :
  (∃ (u : SupabaseUser) (p : JsObject),
     (signIn offline_supabase fixed_clock "demo@chamber.law" "demo123456" initial_world).2
       = mkWorld (Some u) (Some p) true 4 [EvSetUser (Some u); EvSetUserProfile (Some p)]
     ∧ user_id u = "demo-user-id"
     ∧ p !! "role" = Some (VStr "senior_lawyer"))
  ∧ events (signIn accepting_supabase fixed_clock "Demo@chamber.law" "demo123456"
              initial_world).2
    = [EvSignInWithPassword "Demo@chamber.law" "demo123456"].
Proof.
  split.
  - destruct (signIn_demo_bypass offline_supabase fixed_clock
                "demo@chamber.law" "demo123456" initial_world) as [Hdemo _].
    destruct Hdemo as (u & p & Hrun & Hid & _ & Hrole & _).
    + split; reflexivity.
    + exists u, p. rewrite Hrun. repeat split; assumption.
  - destruct (signIn_demo_bypass accepting_supabase fixed_clock
                "Demo@chamber.law" "demo123456" initial_world) as [_ Hother].
    destruct Hother as (r & Hrun & _).
    + intros [Hemail _]. discriminate Hemail.
    + rewrite Hrun. reflexivity.
Defined.

(** C4, as the code has it. For every pair other than the demo pair that
    the backend turns down, by an error answer or by a rejected request,
    signIn throws one fixed error, the same whatever error the backend gave.
    Its message is the sentence "Invalid credentials. Please try
    demo@chamber.law / demo123456": it contains both demo strings, and it
    contains the backend's text only when that text is a part of this
    sentence. *)
Theorem signIn_rejected_generic_error (sb : Supabase) (clock : nat → string)
    (email password : string) (w : World) (e : Error) :
  ¬ (email = "demo@chamber.law" ∧ password = "demo123456") →
  auth_signInWithPassword sb email password = Fulfilled (Some e)
  ∨ auth_signInWithPassword sb email password = Rejected e →
  ∃ thrown : Error,
    (signIn sb clock email password w).1 = Throw thrown
    ∧ err_message thrown
      = "Invalid credentials. Please try demo@chamber.law / demo123456"
    ∧ includes (err_message thrown) "demo@chamber.law" = true
    ∧ includes (err_message thrown) "demo123456" = true
    ∧ (includes "Invalid credentials. Please try demo@chamber.law / demo123456"
         (err_message e) = false →
       includes (err_message thrown) (err_message e) = false)
    ∧ (∀ (sb' : Supabase) (e' : Error),
         auth_signInWithPassword sb' email password = Fulfilled (Some e')
         ∨ auth_signInWithPassword sb' email password = Rejected e' →
         (signIn sb' clock email password w).1 = Throw thrown).
Proof.
  intros Hne Hfail.
  assert (Hgeneric : ∀ sb0 e0,
            auth_signInWithPassword sb0 email password = Fulfilled (Some e0)
            ∨ auth_signInWithPassword sb0 email password = Rejected e0 →
            (signIn sb0 clock email password w).1
              = Throw (new_Error invalid_credentials_message)).
  { intros sb0 e0 H0.
    rewrite signIn_backend by (by apply is_demo_credentials_other).
    by destruct H0 as [-> | ->]. }
  exists (new_Error invalid_credentials_message).
  split; [by apply (Hgeneric sb e) |].
  split; [reflexivity |]. split; [reflexivity |]. split; [reflexivity |].
  split; [intros Hpart; exact Hpart |].
  intros sb' e' Hfail'. by apply (Hgeneric sb' e').
Qed.

Lemma signIn_rejected_generic_error_witness :
  ∃ thrown : Error,
    (signIn refusing_supabase fixed_clock "ada@example.org" "hunter2" initial_world).1
      = Throw thrown
    ∧ includes (err_message thrown) "demo@chamber.law" = true
    ∧ includes (err_message thrown) "demo123456" = true
    ∧ includes (err_message thrown) "Invalid login credentials" = false
    ∧ (signIn offline_supabase fixed_clock "ada@example.org" "hunter2" initial_world).1
      = Throw thrown.
Proof.
  destruct (signIn_rejected_generic_error refusing_supabase fixed_clock
              "ada@example.org" "hunter2" initial_world auth_error)
    as (thrown & Hthrow & _ & Hemail & Hpassword & Hhidden & Hsame).
  - intros [Hemail _]. discriminate Hemail.
  - left. reflexivity.
  - exists thrown. split; [exact Hthrow |]. split; [exact Hemail |].
    split; [exact Hpassword |]. split.
    + apply Hhidden. reflexivity.
    + apply (Hsame offline_supabase network_error). right. reflexivity.
Defined.

(** C4, as stated, fails: when the backend's text is a part of the fixed
    sentence (here "Invalid credentials"), the message thrown contains it. *)
Lemma signIn_message_can_contain_backend_text :
  ¬ (∀ (sb : Supabase) (clock : nat → string) (email password : string)
       (w : World) (e : Error),
       ¬ (email = "demo@chamber.law" ∧ password = "demo123456") →
       auth_signInWithPassword sb email password = Fulfilled (Some e)
       ∨ auth_signInWithPassword sb email password = Rejected e →
       ∃ thrown : Error,
         (signIn sb clock email password w).1 = Throw thrown
         ∧ includes (err_message thrown) "demo@chamber.law" = true
         ∧ includes (err_message thrown) "demo123456" = true
         ∧ includes (err_message thrown) (err_message e) = false).
Proof.
  intros Hall.
  destruct (Hall terse_supabase fixed_clock "ada@example.org" "hunter2"
              initial_world terse_auth_error)
    as (thrown & Hthrow & _ & _ & Hhidden).
  - intros [Hemail _]. discriminate Hemail.
  - left. reflexivity.
  - vm_compute in Hthrow. injection Hthrow as <-.
    vm_compute in Hhidden. discriminate Hhidden.
Qed.

(** The comparison is exact: another case, a missing character or a
    trailing blank is another pair. *)
Example is_demo_credentials_exact :
  is_demo_credentials "demo@chamber.law" "demo123456" = true
  ∧ is_demo_credentials "Demo@Chamber.Law" "demo123456" = false
  ∧ is_demo_credentials "demo@chamber.law" "demo12345" = false
  ∧ is_demo_credentials "demo@chamber.law " "demo123456" = false
  ∧ is_demo_credentials "demo@chamber.law" "DEMO123456" = false.
Proof. repeat split. Qed.

(** The text Supabase gives for a wrong password is not in the message. *)
Example signIn_hides_auth_error :
  includes
    (match (signIn refusing_supabase fixed_clock "ada@example.org" "hunter2"
              initial_world).1 with
     | Throw err => err_message err
     | Normal _ => ""
     end)
    (err_message auth_error) = false.
Proof. reflexivity. Qed.

(** ** signOut *)

Lemma signOut_run sb w :
  signOut sb w =
    (Normal tt,
     mkWorld None None (loading w) (clock_reads w)
       (events w ++ [EvSetUser None; EvSetUserProfile None; EvAuthSignOut]
          ++ match auth_signOut sb with
             | Fulfilled _ => []
             | Rejected _ => [EvConsoleLog "Supabase signOut skipped in demo mode"]
             end)).
Proof.
  open_world w. run_provider.
  destruct (auth_signOut sb) as [r|e]; cbn;
    rewrite <- ?app_assoc; reflexivity.
Qed.

(** C3. From every state, signOut first sets the identity and the profile
    to empty, then sends the backend sign-out; whether that request is
    answered, answered with an error or rejected, signOut returns normally
    with both cells empty (a rejection only leaves a console line). *)
Theorem signOut_clears_and_swallows (sb : Supabase) (w : World) :
  signOut sb w =
    (Normal tt,
     mkWorld None None (loading w) (clock_reads w)
       (events w ++ [EvSetUser None; EvSetUserProfile None; EvAuthSignOut]
          ++ match auth_signOut sb with
             | Fulfilled _ => []
             | Rejected _ => [EvConsoleLog "Supabase signOut skipped in demo mode"]
             end)).
Proof. apply signOut_run. Qed.

Example signOut_offline :
  signOut offline_supabase ada_world =
    (Normal tt,
     mkWorld None None false 0
       [EvSetUser None; EvSetUserProfile None; EvAuthSignOut;
        EvConsoleLog "Supabase signOut skipped in demo mode"]).
Proof. reflexivity. Qed.

(** ** fetchUserProfile *)

Lemma fetchUserProfile_failed sb userId w e :
  select_failure (users_select_single sb userId) = Some e →
  fetchUserProfile sb userId w =
    (Normal tt,
     mkWorld (user w) (userProfile w) false (clock_reads w)
       (events w ++ [EvUsersSelectSingle userId;
                     EvConsoleError "Error fetching user profile:" e;
                     EvSetLoading false])).
Proof.
  intros Hfail. open_world w. run_provider.
  destruct (users_select_single sb userId) as [[d [e'|]]|e']; cbn in Hfail;
    simplify_eq; cbn; rewrite <- ?app_assoc; reflexivity.
Qed.

Lemma fetchUserProfile_fetched sb userId w :
  select_failure (users_select_single sb userId) = None →
  ∃ row : option JsObject,
    users_select_single sb userId = Fulfilled (mkSelectReply row None)
    ∧ fetchUserProfile sb userId w =
        (Normal tt,
         mkWorld (user w) row false (clock_reads w)
           (events w ++ [EvUsersSelectSingle userId; EvSetUserProfile row;
                         EvSetLoading false])).
Proof.
  intros Hok. open_world w. run_provider.
  destruct (users_select_single sb userId) as [[d [e'|]]|e']; cbn in Hok;
    simplify_eq.
  exists d. split; [reflexivity |]. cbn. rewrite <- ?app_assoc. reflexivity.
Qed.

(** C7. fetchUserProfile never throws and always ends by clearing the
    loading flag, for every identity id and every answer of the remote
    store; when the fetch fails (an error answer or a rejected request) it
    logs the error on the console and leaves the identity and the cached
    profile as they were. *)
Theorem fetchUserProfile_failure_and_finally (sb : Supabase) (userId : string)
    (w : World) :
  (fetchUserProfile sb userId w).1 = Normal tt
  ∧ loading (fetchUserProfile sb userId w).2 = false
  ∧ (∃ earlier : list event,
       events (fetchUserProfile sb userId w).2 = earlier ++ [EvSetLoading false])
  ∧ (∀ e : Error,
       select_failure (users_select_single sb userId) = Some e →
       fetchUserProfile sb userId w =
         (Normal tt,
          mkWorld (user w) (userProfile w) false (clock_reads w)
            (events w ++ [EvUsersSelectSingle userId;
                          EvConsoleError "Error fetching user profile:" e;
                          EvSetLoading false]))).
Proof.
  destruct (select_failure (users_select_single sb userId)) as [e|] eqn:Hsel.
  - rewrite (fetchUserProfile_failed sb userId w e Hsel). cbn.
    repeat split.
    + eexists (_ ++ [_; _]). by rewrite <- app_assoc.
    + intros e' He'. by simplify_eq.
  - destruct (fetchUserProfile_fetched sb userId w Hsel) as (row & _ & ->). cbn.
    repeat split.
    + eexists (_ ++ [_; _]). by rewrite <- app_assoc.
    + intros e' He'. discriminate He'.
Qed.

Lemma fetchUserProfile_failure_and_finally_witness :
  fetchUserProfile offline_supabase "user-ada" ada_world =
    (Normal tt,
     mkWorld (Some ada) (Some (sample_row "user-ada")) false 0
       [EvUsersSelectSingle "user-ada";
        EvConsoleError "Error fetching user profile:" network_error;
        EvSetLoading false]).
Proof.
  destruct (fetchUserProfile_failure_and_finally offline_supabase "user-ada" ada_world)
    as (_ & _ & _ & Hfail).
  apply (Hfail network_error). reflexivity.
Defined.

(** ** The session callbacks and whole runs *)

Lemma onInitialSession_run sb session w :
  onInitialSession sb session w =
    match session with
    | Some s =>
        fetchUserProfile sb (user_id (session_user s))
          (mkWorld (Some (session_user s)) (userProfile w) (loading w) (clock_reads w)
             (events w ++ [EvSetUser (Some (session_user s))]))
    | None =>
        (Normal tt,
         mkWorld None (userProfile w) false (clock_reads w)
           (events w ++ [EvSetUser None; EvSetLoading false]))
    end.
Proof.
  open_world w. destruct session as [s|]; [reflexivity |].
  run_provider. by rewrite <- app_assoc.
Qed.

Lemma onAuthStateChange_run sb ev session w :
  onAuthStateChange sb ev session w =
    match session with
    | Some s =>
        fetchUserProfile sb (user_id (session_user s))
          (mkWorld (Some (session_user s)) (userProfile w) (loading w) (clock_reads w)
             (events w ++ [EvSetUser (Some (session_user s))]))
    | None =>
        (Normal tt,
         mkWorld None None false (clock_reads w)
           (events w ++ [EvSetUser None; EvSetUserProfile None; EvSetLoading false]))
    end.
Proof.
  open_world w. destruct session as [s|]; [reflexivity |].
  run_provider. by rewrite <- !app_assoc.
Qed.











(** ** The identity invariant *)

Ltac run_stretch :=
  cbv [run_segment exec_segment
       fetchUserProfile_sent fetchUserProfile_resumed onInitialSession_sent
       onAuthStateChange_sent signIn_resumed signOut_sent signOut_resumed
       updateProfile_sent updateProfile_resumed updateProfile_of
       updateProfile signOut fetchUserProfile onInitialSession initialize
       onAuthStateChange session_user_or_null
       call_update call_signOut call_select_single call_signInWithPassword
       new_Date_toISOString read_user setUser setUserProfile setUserProfile_with
       setLoading console_error console_log emit await throw throw_if_error
       try_catch try_finally mbind M_bind mret M_ret fmap option_fmap option_map
       user userProfile loading clock_reads events].

(** Run without interruption, each function is its stretches in a row. *)
Lemma fetchUserProfile_cut sb userId w :
  fetchUserProfile sb userId w =
    fetchUserProfile_resumed (users_select_single sb userId)
      (fetchUserProfile_sent userId w).2.
Proof.
  open_world w. run_stretch.
  by destruct (users_select_single sb userId) as [[row [err|]]|err].
Qed.

Lemma onAuthStateChange_cut sb ev session w :
  onAuthStateChange sb ev session w =
    match session with
    | Some s =>
        fetchUserProfile_resumed (users_select_single sb (user_id (session_user s)))
          (onAuthStateChange_sent ev session w).2
    | None => onAuthStateChange_sent ev session w
    end.
Proof.
  open_world w. destruct session as [s|]; run_stretch; [| reflexivity].
  by destruct (users_select_single sb (user_id (session_user s))) as [[row [err|]]|err].
Qed.

Lemma onInitialSession_cut sb session w :
  onInitialSession sb session w =
    match session with
    | Some s =>
        fetchUserProfile_resumed (users_select_single sb (user_id (session_user s)))
          (onInitialSession_sent session w).2
    | None => onInitialSession_sent session w
    end.
Proof.
  open_world w. destruct session as [s|]; run_stretch; [| reflexivity].
  by destruct (users_select_single sb (user_id (session_user s))) as [[row [err|]]|err].
Qed.

Lemma signIn_cut sb clock email password w :
  signIn sb clock email password w =
    if is_demo_credentials email password
    then signIn_sent clock email password w
    else signIn_resumed (auth_signInWithPassword sb email password)
           (signIn_sent clock email password w).2.
Proof.
  open_world w. unfold signIn, signIn_sent.
  destruct (is_demo_credentials email password); [reflexivity |]. run_stretch.
  by destruct (auth_signInWithPassword sb email password) as [[err|]|err].
Qed.

Lemma signOut_cut sb w :
  signOut sb w = signOut_resumed (auth_signOut sb) (signOut_sent w).2.
Proof. open_world w. run_stretch. by destruct (auth_signOut sb) as [err|err]. Qed.

(** The [updateProfile] of the latest render is the one that captured the
    identity now set. *)
Lemma updateProfile_latest sb U w :
  updateProfile sb U w = updateProfile_of sb (user w) U w.
Proof. open_world w. by destruct wu. Qed.

Lemma updateProfile_of_cut sb usr U w :
  updateProfile_of sb (Some usr) U w =
    updateProfile_resumed U (users_update sb U (user_id usr))
      (updateProfile_sent (Some usr) U w).2.
Proof.
  open_world w. run_stretch.
  by destruct (users_update sb U (user_id usr)) as [[err|]|err].
Qed.

Lemma signIn_sent_matches clock email password w :
  profile_matches_identity w →
  profile_matches_identity (signIn_sent clock email password w).2.
Proof.
  intros Hinv. open_world w. unfold signIn_sent.
  destruct (is_demo_credentials email password); [| exact Hinv].
  run_stretch. unfold profile_matches_identity. cbn [user userProfile user_id mockUser].
  apply mockProfile_fields.
Qed.

Lemma updateProfile_resumed_matches U answer w :
  profile_matches_identity w →
  keeps_identity (SegUpdateProfileResumed U answer) w →
  profile_matches_identity (updateProfile_resumed U answer w).2.
Proof.
  intros Hinv Hkeep. open_world w. unfold keeps_identity, profile_matches_identity in *.
  cbn [user userProfile] in *. run_stretch.
  destruct answer as [[err|]|err]; cbn [snd user userProfile]; try exact Hinv.
  destruct wu as [u|], wp as [p|]; try done.
  rewrite spread_lookup. destruct (U !! "id") as [v|]; by subst.
Qed.

(** One stretch keeps the invariant under its condition. *)
Lemma segment_keeps_invariant clock seg w :
  profile_matches_identity w →
  keeps_identity seg w →
  profile_matches_identity (exec_segment clock seg w).
Proof.
  intros Hinv Hkeep.
  destruct seg as [session|ev session|userId answer|email password|answer|
                   |answer|captured U|U answer].
  - open_world w. unfold profile_matches_identity in *. cbn in *.
    destruct session as [s|]; run_stretch; cbn; [| done].
    destruct wp as [p|], wu as [u|]; try done. by rewrite <- Hkeep.
  - open_world w. unfold profile_matches_identity in *. cbn in *.
    destruct session as [s|]; run_stretch; cbn; [| done].
    destruct wp as [p|], wu as [u|]; try done. by rewrite <- Hkeep.
  - open_world w. unfold profile_matches_identity, identity_is in *. cbn in *.
    run_stretch.
    destruct answer as [[[row|] [err|]]|err]; cbn in *; try exact Hinv.
    + destruct wu as [u|]; [| done]. destruct Hkeep as [Hrow Hid]. by rewrite Hid.
    + by destruct wu.
  - by apply signIn_sent_matches.
  - open_world w. unfold exec_segment. cbn [run_segment]. run_stretch.
    by destruct answer as [[err|]|err].
  - open_world w. done.
  - open_world w. unfold exec_segment. cbn [run_segment]. run_stretch.
    by destruct answer as [err|err].
  - open_world w. unfold exec_segment. cbn [run_segment]. run_stretch.
    by destruct captured.
  - by apply updateProfile_resumed_matches.
Qed.

(** C9, as the code has it. Whatever the interleaving of the operations
    and of the answers they wait for, profile.id == identity.id (whenever
    both are present) is kept by every stretch of signIn and of signOut, by
    a session callback with no session, by a profile fetch that fails or
    answers no row, and by the start of an update; it is kept by the merge
    of an update that carries no [id] (or the id of the identity then set),
    by a session callback with an identity when no profile is cached or the
    identity already set has the same id, and by a fetch that resumes with
    a row when the row has the id asked for and the identity then set, if
    any, has that id. *)
Theorem identity_invariant_preserved (clock : nat → string) (segs : list segment)
    (w : World) :
  profile_matches_identity w →
  all_keep_identity clock segs w →
  profile_matches_identity (exec_segments clock segs w).
Proof.
  revert w. induction segs as [| seg rest IH]; intros w Hinv Hkeep; [exact Hinv |].
  destruct Hkeep as [Hseg Hrest].
  apply (IH (exec_segment clock seg w)); [| exact Hrest].
  by apply segment_keeps_invariant.
Qed.

(** A token refresh whose fetch fails, interleaved with an update of the
    name, then a demo sign-in and a sign-out. *)
Lemma identity_invariant_preserved_witness :
  profile_matches_identity
    (exec_segments fixed_clock
       [SegAuthStateChange "TOKEN_REFRESHED" (Some (mkSession ada));
        SegUpdateProfile (Some ada) {["name" := VStr "Ada L."]};
        SegFetchResumed "user-ada" (Rejected network_error);
        SegUpdateProfileResumed {["name" := VStr "Ada L."]} (Fulfilled None)]
       ada_world)
  ∧ userProfile
      (exec_segments fixed_clock
         [SegAuthStateChange "TOKEN_REFRESHED" (Some (mkSession ada));
          SegUpdateProfile (Some ada) {["name" := VStr "Ada L."]};
          SegFetchResumed "user-ada" (Rejected network_error);
          SegUpdateProfileResumed {["name" := VStr "Ada L."]} (Fulfilled None)]
         ada_world)
    = Some (spread (sample_row "user-ada") {["name" := VStr "Ada L."]}).
Proof.
  split; [| reflexivity].
  apply (identity_invariant_preserved fixed_clock
           [SegAuthStateChange "TOKEN_REFRESHED" (Some (mkSession ada));
            SegUpdateProfile (Some ada) {["name" := VStr "Ada L."]};
            SegFetchResumed "user-ada" (Rejected network_error);
            SegUpdateProfileResumed {["name" := VStr "Ada L."]} (Fulfilled None)]
           ada_world).
  - reflexivity.
  - vm_compute. repeat split.
Defined.

(** Where the condition fails, so can the invariant: a demo sign-in made
    while the fetch for another identity is pending. *)
Example identity_invariant_broken_by_race :
  let before :=
    exec_segments fixed_clock
      [SegAuthStateChange "SIGNED_IN" (Some (mkSession ada));
       SegSignIn "demo@chamber.law" "demo123456"] initial_world in
  let answer := Fulfilled (mkSelectReply (Some (sample_row "user-ada")) None) in
  profile_matches_identity before
  ∧ ¬ keeps_identity (SegFetchResumed "user-ada" answer) before
  ∧ (user_id <$> user (exec_segment fixed_clock (SegFetchResumed "user-ada" answer) before))
    = Some "demo-user-id"
  ∧ userProfile (exec_segment fixed_clock (SegFetchResumed "user-ada" answer) before)
    = Some (sample_row "user-ada")
  ∧ ¬ profile_matches_identity
        (exec_segment fixed_clock (SegFetchResumed "user-ada" answer) before).
Proof.
  cbv zeta. split; [reflexivity |]. split.
  { intros [_ Hid]. vm_compute in Hid. discriminate Hid. }
  split; [reflexivity |]. split; [reflexivity |].
  intros Hinv. vm_compute in Hinv. discriminate Hinv.
Qed.

(** C9, as stated, fails: an update that carries another [id] is merged
    into the cached profile, which then no longer has the identity's id. *)
Lemma identity_invariant_broken_by_update :
  ¬ (∀ (sb : Supabase) (clock : nat → string) (op : operation) (w : World),
       profile_matches_identity w →
       profile_matches_identity (exec sb clock op w)).
Proof.
  intros Hall.
  specialize (Hall accepting_supabase fixed_clock
                (OpUpdateProfile {["id" := VStr "user-bob"]}) ada_world).
  assert (Hinv : profile_matches_identity ada_world) by reflexivity.
  apply Hall in Hinv. vm_compute in Hinv. discriminate Hinv.
Qed.

(** A second way out of the invariant: a notification brings another
    identity and its profile fetch fails, so the previous identity's
    profile stays cached. *)
Example identity_invariant_broken_by_failed_fetch :
  profile_matches_identity ada_world
  ∧ user (exec refusing_supabase fixed_clock
            (OpAuthStateChange "SIGNED_IN" (Some (mkSession bob))) ada_world)
    = Some bob
  ∧ userProfile (exec refusing_supabase fixed_clock
                   (OpAuthStateChange "SIGNED_IN" (Some (mkSession bob))) ada_world)
    = Some (sample_row "user-ada")
  ∧ ¬ profile_matches_identity
        (exec refusing_supabase fixed_clock
           (OpAuthStateChange "SIGNED_IN" (Some (mkSession bob))) ada_world).
Proof.
  split; [reflexivity |]. split; [reflexivity |]. split; [reflexivity |].
  intros Hinv. vm_compute in Hinv. discriminate Hinv.
Qed.

(** * Further properties of the provider *)

(** ** updateProfile beyond the merge law *)

Lemma spread_assoc (P U1 U2 : JsObject) :
  spread (spread P U1) U2 = spread P (spread U1 U2).
Proof. unfold spread. by rewrite (assoc_L (∪)). Qed.

Lemma spread_absorbed (P U : JsObject) : U ⊆ P → spread P U = P.
Proof. unfold spread. apply map_subseteq_union. Qed.

(** X1. The merge is not limited to the keys of the cached profile: after a
    successful write the cached profile has the keys of both objects, each
    key of the update with the update's value (an explicit [undefined]
    included) and every other key with the cached value. *)
Theorem updateProfile_merge_any_update (sb : Supabase) (w : World) (u : SupabaseUser)
    (P U : JsObject) :
  user w = Some u →
  userProfile w = Some P →
  users_update sb U (user_id u) = Fulfilled None →
  ∃ P' : JsObject,
    userProfile (updateProfile sb U w).2 = Some P'
    ∧ dom P' = dom U ∪ dom P
    ∧ (∀ k, P' !! k = match U !! k with Some v => Some v | None => P !! k end).
Proof.
  intros Hu HP Hok. exists (spread P U).
  rewrite (updateProfile_written sb U w u Hu Hok), HP. cbn.
  split; [reflexivity |]. split.
  - unfold spread. apply dom_union_L.
  - intros k. apply spread_lookup.
Qed.

Lemma updateProfile_merge_any_update_witness :
  ∃ P' : JsObject,
    userProfile
      (updateProfile accepting_supabase
         (<["phone" := VStr "555-0100"]> {["name" := VUndefined]}) ada_world).2 = Some P'
    ∧ P' !! "phone" = Some (VStr "555-0100")
    ∧ P' !! "name" = Some VUndefined
    ∧ P' !! "role" = Some (VStr "paralegal").
Proof.
  destruct (updateProfile_merge_any_update accepting_supabase ada_world ada
              (sample_row "user-ada")
              (<["phone" := VStr "555-0100"]> {["name" := VUndefined]}))
    as (P' & Hrun & _ & Hkeys).
  - reflexivity.
  - reflexivity.
  - reflexivity.
  - exists P'. split; [exact Hrun |]. rewrite !Hkeys. repeat split.
Defined.

(** X2. Two successful updates in a row cache the profile that one update
    with the spread of both would cache: on a key of both updates the later
    one wins. Both writes are sent, in order, and nothing is fetched. *)
Theorem updateProfile_twice (sb1 sb2 : Supabase) (w : World) (u : SupabaseUser)
    (P U1 U2 : JsObject) :
  user w = Some u →
  userProfile w = Some P →
  users_update sb1 U1 (user_id u) = Fulfilled None →
  users_update sb2 U2 (user_id u) = Fulfilled None →
  let w2 := (updateProfile sb2 U2 (updateProfile sb1 U1 w).2).2 in
  userProfile w2 = Some (spread P (spread U1 U2))
  ∧ (∀ k, spread P (spread U1 U2) !! k =
          match U2 !! k, U1 !! k with
          | Some v, _ => Some v
          | None, Some v => Some v
          | None, None => P !! k
          end)
  ∧ backend_calls
      (drop (length (events w)) (events w2))
    = [EvUsersUpdate U1 (user_id u); EvUsersUpdate U2 (user_id u)].
Proof.
  intros Hu HP Hok1 Hok2 w2. subst w2.
  rewrite (updateProfile_written sb1 U1 w u Hu Hok1), HP. cbn [snd].
  rewrite (updateProfile_written sb2 U2 (mkWorld (user w) _ _ _ _) u Hu Hok2). cbn.
  split; [by rewrite spread_assoc |]. split.
  - intros k. rewrite !spread_lookup. by destruct (U2 !! k), (U1 !! k).
  - rewrite <- app_assoc, drop_app_length. reflexivity.
Qed.

Lemma updateProfile_twice_witness :
  userProfile
    (updateProfile accepting_supabase {["name" := VStr "Ada L."]}
       (updateProfile accepting_supabase
          (<["name" := VStr "A."]> {["language" := VStr "en"]}) ada_world).2).2
  = Some (spread (sample_row "user-ada")
            (spread (<["name" := VStr "A."]> {["language" := VStr "en"]})
               {["name" := VStr "Ada L."]}))
  ∧ spread (sample_row "user-ada")
      (spread (<["name" := VStr "A."]> {["language" := VStr "en"]})
         {["name" := VStr "Ada L."]}) !! "name" = Some (VStr "Ada L.").
Proof.
  destruct (updateProfile_twice accepting_supabase accepting_supabase ada_world ada
              (sample_row "user-ada")
              (<["name" := VStr "A."]> {["language" := VStr "en"]})
              {["name" := VStr "Ada L."]})
    as (Hprofile & Hkeys & _).
  - reflexivity.
  - reflexivity.
  - reflexivity.
  - reflexivity.
  - split; [exact Hprofile |]. rewrite Hkeys. reflexivity.
Defined.

(** X3. An update that says nothing new (every entry of it is already in
    the cached profile; the empty update is one) leaves the cached profile
    as it is, but is not short-circuited: the write is still sent to the
    remote store. *)
Theorem updateProfile_nothing_new (sb : Supabase) (w : World) (u : SupabaseUser)
    (P U : JsObject) :
  user w = Some u →
  userProfile w = Some P →
  U ⊆ P →
  users_update sb U (user_id u) = Fulfilled None →
  cells (updateProfile sb U w).2 = cells w
  ∧ backend_calls (drop (length (events w)) (events (updateProfile sb U w).2))
    = [EvUsersUpdate U (user_id u)].
Proof.
  intros Hu HP Hsub Hok.
  rewrite (updateProfile_written sb U w u Hu Hok), HP. unfold cells. cbn.
  rewrite spread_absorbed by done. rewrite HP. split; [reflexivity |].
  by rewrite drop_app_length.
Qed.

Lemma updateProfile_nothing_new_witness :
  cells (updateProfile accepting_supabase ∅ ada_world).2 = cells ada_world
  ∧ events (updateProfile accepting_supabase ∅ ada_world).2
    = [EvUsersUpdate ∅ "user-ada"; EvSetUserProfile (Some (sample_row "user-ada"))].
Proof.
  destruct (updateProfile_nothing_new accepting_supabase ada_world ada
              (sample_row "user-ada") ∅) as [Hcells _].
  - reflexivity.
  - reflexivity.
  - apply map_empty_subseteq.
  - reflexivity.
  - split; [exact Hcells |]. vm_compute. reflexivity.
Defined.

(** ** All operations at once *)

(** The mock objects are kept folded while operations are run. *)
Local Arguments mockProfile : simpl never.
Local Arguments mockUser : simpl never.

(** Case analysis on an operation and on every answer of the backend it
    depends on. What is to be analysed has to be in the goal. *)
Ltac by_operation op w :=
  open_world w; unfold exec, cells;
  destruct op as [[[s|]|reason]|name [s|]|email password| |U]; cbn [run];
  unfold signIn;
  try (destruct (is_demo_credentials email password) eqn:Hdemo);
  run_provider;
  repeat match goal with
    | |- context [users_select_single ?sb ?i] =>
        destruct (users_select_single sb i) as [[row [err|]]|err] eqn:Hselect
    | |- context [users_update ?sb ?U ?i] =>
        destruct (users_update sb U i) as [[err|]|err] eqn:Hupdate
    | |- context [auth_signOut ?sb] =>
        destruct (auth_signOut sb) as [err|err] eqn:Hout
    | |- context [auth_signInWithPassword ?sb ?e ?p] =>
        destruct (auth_signInWithPassword sb e p) as [[err|]|err] eqn:Hin
    | wu : option SupabaseUser |- _ => destruct wu as [usr|]
    end;
  cbn.

(** X4. An operation that throws leaves the three state cells as they
    were: nothing is half-applied on a failed sign-in or a failed update. *)
Theorem throwing_leaves_cells (sb : Supabase) (clock : nat → string)
    (op : operation) (w : World) (e : Error) :
  (run sb clock op w).1 = Throw e →
  cells (exec sb clock op w) = cells w.
Proof.
  by_operation op w; intros Hthrow; try discriminate Hthrow; reflexivity.
Qed.

Lemma throwing_leaves_cells_witness :
  (run refusing_supabase fixed_clock (OpUpdateProfile {["name" := VStr "Ada L."]})
     ada_world).1 = Throw row_error
  ∧ cells (exec refusing_supabase fixed_clock
             (OpUpdateProfile {["name" := VStr "Ada L."]}) ada_world)
    = cells ada_world.
Proof.
  split; [reflexivity |].
  apply (throwing_leaves_cells refusing_supabase fixed_clock
           (OpUpdateProfile {["name" := VStr "Ada L."]}) ada_world row_error).
  reflexivity.
Defined.

(** X5. Only two things are ever thrown to a caller. signIn throws the one
    fixed "Invalid credentials" error, on a pair other than the demo pair
    that the backend turned down. updateProfile throws "No user logged in"
    when no identity is set, and otherwise the very error of the failed
    write. The session callbacks and signOut never throw. *)
Theorem thrown_errors (sb : Supabase) (clock : nat → string)
    (op : operation) (w : World) (e : Error) :
  (run sb clock op w).1 = Throw e →
  (∃ email password,
     op = OpSignIn email password
     ∧ is_demo_credentials email password = false
     ∧ is_Some (reported_error (auth_signInWithPassword sb email password))
     ∧ e = new_Error invalid_credentials_message)
  ∨ (∃ U,
       op = OpUpdateProfile U
       ∧ ((user w = None ∧ e = new_Error "No user logged in")
          ∨ (∃ u, user w = Some u
                  ∧ reported_error (users_update sb U (user_id u)) = Some e))).
Proof.
  by_operation op w; intros Hthrow; try discriminate Hthrow; simplify_eq.
  all: first
    [ left; exists email, password; rewrite Hin; by eauto
    | right; exists U; split; [reflexivity |];
      first [ by left | right; exists usr; by rewrite Hupdate ] ].
Qed.

Lemma thrown_errors_witness :
  (run offline_supabase fixed_clock (OpSignIn "ada@example.org" "hunter2")
     initial_world).1 = Throw (new_Error invalid_credentials_message)
  ∧ is_Some (reported_error
               (auth_signInWithPassword offline_supabase "ada@example.org" "hunter2")).
Proof.
  split; [reflexivity |].
  destruct (thrown_errors offline_supabase fixed_clock
              (OpSignIn "ada@example.org" "hunter2") initial_world
              (new_Error invalid_credentials_message))
    as [(email & password & Hop & _ & Hturned & _) | (U & Hop & _)].
  - reflexivity.
  - injection Hop as <- <-. exact Hturned.
  - discriminate Hop.
Defined.

(** X6. An operation only adds to the trace, and it sends at most one
    request to the backend: nothing is retried, whatever the answer. *)
Theorem one_request_per_operation (sb : Supabase) (clock : nat → string)
    (op : operation) (w : World) :
  ∃ new : list event,
    events (exec sb clock op w) = events w ++ new
    ∧ (length (backend_calls new) ≤ 1)%nat.
Proof.
  by_operation op w; rewrite <- ?app_assoc;
    (eexists; split; [try reflexivity; by rewrite app_nil_r | cbn; lia]).
Qed.

(** X7. The rows an operation touches are the caller's own: a write is
    sent only by updateProfile, with its argument and for the id of the
    identity that is set; a select is sent only by a session callback, for
    the id of the session's identity. *)
Theorem requests_address_own_row (sb : Supabase) (clock : nat → string)
    (op : operation) (w : World) (ev : event) :
  ev ∈ drop (length (events w)) (events (exec sb clock op w)) →
  match ev with
  | EvUsersUpdate U userId =>
      op = OpUpdateProfile U ∧ ∃ u, user w = Some u ∧ userId = user_id u
  | EvUsersSelectSingle userId =>
      ∃ s, userId = user_id (session_user s)
           ∧ (op = OpInitialize (Fulfilled (Some s))
              ∨ ∃ name, op = OpAuthStateChange name (Some s))
  | _ => True
  end.
Proof.
  by_operation op w; rewrite <- ?app_assoc, ?drop_app_length, ?drop_all;
    intros Hev;
    repeat (apply elem_of_cons in Hev as [-> | Hev]);
    try (by apply elem_of_nil in Hev); eauto 8.
Qed.

Lemma requests_address_own_row_witness :
  EvUsersUpdate {["name" := VStr "Ada L."]} "user-ada"
    ∈ drop (length (events ada_world))
        (events (exec refusing_supabase fixed_clock
                   (OpUpdateProfile {["name" := VStr "Ada L."]}) ada_world))
  ∧ ∃ u, user ada_world = Some u ∧ "user-ada" = user_id u.
Proof.
  assert (Hin : EvUsersUpdate {["name" := VStr "Ada L."]} "user-ada"
                  ∈ drop (length (events ada_world))
                      (events (exec refusing_supabase fixed_clock
                                 (OpUpdateProfile {["name" := VStr "Ada L."]})
                                 ada_world))).
  { vm_compute. apply list_elem_of_here. }
  split; [exact Hin |].
  exact (proj2 (requests_address_own_row refusing_supabase fixed_clock
                  (OpUpdateProfile {["name" := VStr "Ada L."]}) ada_world _ Hin)).
Defined.

(** ** The two session callbacks *)

(** X8. Without a session, the callback of getSession and the callback
    of an auth-change notification both clear the identity and the loading
    flag and send nothing to the backend, but only the notification clears
    the cached profile: the callback of getSession leaves it as it was. *)
Theorem session_callbacks_compared (sb : Supabase) (name : string) (w : World) :
  onInitialSession sb None w =
    (Normal tt,
     mkWorld None (userProfile w) false (clock_reads w)
       (events w ++ [EvSetUser None; EvSetLoading false]))
  ∧ onAuthStateChange sb name None w =
      (Normal tt,
       mkWorld None None false (clock_reads w)
         (events w ++ [EvSetUser None; EvSetUserProfile None; EvSetLoading false])).
Proof. by rewrite onInitialSession_run, onAuthStateChange_run. Qed.

(** X9. A demo sign-in made before getSession has answered is half undone
    when the answer is "no session": the identity is cleared, the demo
    profile stays cached, so the provider then holds a profile and no
    identity. *)
Theorem demo_profile_outlives_sessionless_start (sb sb' : Supabase)
    (clock : nat → string) (w : World) :
  let w1 := exec sb clock (OpSignIn "demo@chamber.law" "demo123456") w in
  let w2 := exec sb' clock (OpInitialize (Fulfilled None)) w1 in
  user w2 = None
  ∧ userProfile w2 = userProfile w1
  ∧ (∃ p, userProfile w2 = Some p ∧ p !! "id" = Some (VStr "demo-user-id"))
  ∧ loading w2 = false.
Proof.
  cbv zeta. unfold exec. cbn [run initialize].
  rewrite onInitialSession_run, signIn_demo. cbn.
  repeat split. eexists. split; [reflexivity |]. apply mockProfile_fields.
Qed.

(** X10. A session whose profile fetch succeeds decides the identity and
    the profile by itself: the identity is the session's, the profile is
    the fetched row (or empty when the answer has none), whatever was
    cached before, local merges included. *)
Theorem session_with_row_decides_cells (sb : Supabase) (name : string)
    (s : Session) (row : option JsObject) (w : World) :
  users_select_single sb (user_id (session_user s)) = Fulfilled (mkSelectReply row None) →
  cells (onAuthStateChange sb name (Some s) w).2 = (Some (session_user s), row, false)
  ∧ cells (onInitialSession sb (Some s) w).2 = (Some (session_user s), row, false).
Proof.
  intros Hrow. rewrite onAuthStateChange_run, onInitialSession_run.
  destruct (fetchUserProfile_fetched sb (user_id (session_user s))
              (mkWorld (Some (session_user s)) (userProfile w) (loading w)
                 (clock_reads w) (events w ++ [EvSetUser (Some (session_user s))])))
    as (row' & Hrow' & ->).
  - by rewrite Hrow.
  - rewrite Hrow in Hrow'. by simplify_eq.
Qed.

Lemma session_with_row_decides_cells_witness :
  cells
    (onAuthStateChange accepting_supabase "TOKEN_REFRESHED" (Some (mkSession ada))
       (updateProfile accepting_supabase {["name" := VStr "Ada L."]} ada_world).2).2
  = (Some ada, Some (sample_row "user-ada"), false).
Proof.
  destruct (session_with_row_decides_cells accepting_supabase "TOKEN_REFRESHED"
              (mkSession ada) (Some (sample_row "user-ada"))
              (updateProfile accepting_supabase {["name" := VStr "Ada L."]} ada_world).2)
    as [Hcells _].
  - reflexivity.
  - exact Hcells.
Defined.

(** ** Demo mode and the backend *)

(** X11. The demo identity does not make updateProfile local. After a
    demo sign-in, the updateProfile of a render that has seen the demo
    identity sends the write for the row "demo-user-id" to the backend, and
    when that write fails the error is thrown and the cells keep the demo
    identity and profile. The updateProfile of a render without an identity,
    called after the same sign-in, still throws "No user logged in" and
    sends nothing. *)
Theorem demo_update_reaches_backend (sb sb' : Supabase) (clock : nat → string)
    (U : JsObject) (w : World) :
  let w1 := (signIn sb clock "demo@chamber.law" "demo123456" w).2 in
  (∃ rest : list event,
     events (updateProfile_of sb' (user w1) U w1).2
       = events w1 ++ EvUsersUpdate U "demo-user-id" :: rest)
  ∧ (∀ e : Error,
       reported_error (users_update sb' U "demo-user-id") = Some e →
       (updateProfile_of sb' (user w1) U w1).1 = Throw e
       ∧ cells (updateProfile_of sb' (user w1) U w1).2 = cells w1)
  ∧ updateProfile_of sb' None U w1 = (Throw (new_Error "No user logged in"), w1).
Proof.
  cbv zeta. rewrite <- updateProfile_latest. rewrite signIn_demo. cbv zeta. cbn [snd].
  set (w1 := mkWorld _ _ _ _ _).
  assert (Hu : user w1 = Some (mockUser (clock (clock_reads w)) (clock (1 + clock_reads w))))
    by reflexivity.
  split; [| split; [| reflexivity]];
    destruct (users_update sb' U "demo-user-id") as [[e|]|e] eqn:Hupd.
  - rewrite (updateProfile_failed sb' U w1 _ e Hu) by (by left). by exists [].
  - rewrite (updateProfile_written sb' U w1 _ Hu Hupd). by eexists [_].
  - rewrite (updateProfile_failed sb' U w1 _ e Hu) by (by right). by exists [].
  - rewrite (updateProfile_failed sb' U w1 _ e Hu) by (by left).
    intros e' He'. cbn in He'. by simplify_eq.
  - intros e' He'. discriminate He'.
  - rewrite (updateProfile_failed sb' U w1 _ e Hu) by (by right).
    intros e' He'. cbn in He'. by simplify_eq.
Qed.

Lemma demo_update_reaches_backend_witness :
  (updateProfile_of offline_supabase
     (user (signIn offline_supabase fixed_clock "demo@chamber.law" "demo123456"
              initial_world).2)
     {["name" := VStr "Demo"]}
     (signIn offline_supabase fixed_clock "demo@chamber.law" "demo123456"
        initial_world).2).1 = Throw network_error
  ∧ (updateProfile_of offline_supabase (user initial_world) {["name" := VStr "Demo"]}
       (signIn offline_supabase fixed_clock "demo@chamber.law" "demo123456"
          initial_world).2).1 = Throw (new_Error "No user logged in").
Proof.
  destruct (demo_update_reaches_backend offline_supabase offline_supabase fixed_clock
              {["name" := VStr "Demo"]} initial_world) as (_ & Hfail & Hstale).
  destruct (Hfail network_error) as [Hthrow _].
  - reflexivity.
  - split; [exact Hthrow |]. cbn [user initial_world]. by rewrite Hstale.
Defined.
